(** * Theme controller of the personal web site (src/contexts/theme.tsx)

    A shallow embedding of the React theme provider: the preference cycle,
    the resolution of a preference to a rendered theme, the mount effect that
    reads the stored preference, the handler of operating-system colour-scheme
    changes, the inline script that runs before hydration, and [useTheme].

    JavaScript values are kept as they are at run time: TypeScript's
    [DisplayTheme] and [ActualTheme] are erased, so a field typed
    ['light' | 'dark'] holds whatever string (or [null]) was written to it. *)

From Stdlib Require Import ZArith.
From stdpp Require Import base strings list gmap.

Local Open Scope Z_scope.

(** ** JavaScript values met by the controller *)

Inductive value : Type :=
  | VUndefined
  | VNull
  | VStr (s : string).

(** [a === b] on the values above. *)
Definition strict_eq (a b : value) : bool :=
  match a, b with
  | VUndefined, VUndefined => true
  | VNull, VNull => true
  | VStr s, VStr t => String.eqb s t
  | _, _ => false
  end.

(** The string conversion [localStorage.setItem] applies to its argument. *)
Definition ToString (v : value) : string :=
  match v with
  | VUndefined => "undefined"
  | VNull => "null"
  | VStr s => s
  end.

(** [Array.prototype.findIndex]: the first index whose element satisfies the
    predicate, [-1] when there is none. *)
Fixpoint findIndex_from {A : Type} (p : A → bool) (l : list A) (i : Z) : Z :=
  match l with
  | [] => -1
  | x :: l' => if p x then i else findIndex_from p l' (i + 1)
  end.

Definition findIndex {A : Type} (p : A → bool) (l : list A) : Z :=
  findIndex_from p l 0.

(** [arr[i]]: [undefined] outside the array. *)
Definition array_get (arr : list value) (i : Z) : value :=
  if i <? 0 then VUndefined
  else match arr !! Z.to_nat i with
       | Some v => v
       | None => VUndefined
       end.

(** ** Data of the provider *)

Record ThemeState : Type := mkThemeState {
  displayTheme : value;
  actualTheme : value;
}.

(** A decoded clip; the handle is opaque to the controller, which only tests
    it for presence and hands it to [SoundManager.play]. *)
Inductive AudioBuffer : Type :=
  | DecodedClip (url : string).

Record AudioRef : Type := mkAudioRef {
  switchOn : option AudioBuffer;
  switchOff : option AudioBuffer;
}.

(** What the controller does to the outside world, in the order it does it. *)
Inductive Effect : Type :=
  | SetState (s : ThemeState)
  | StorageSetItem (key val : string)
  | PlaySound (b : AudioBuffer)
  | LoadSound (url : string)
  | ClassAdd (token : string)
  | ClassRemove (token : string).

(** The page session: React state, the audio ref, [localStorage], the class
    list of [document.documentElement], and the live answer of
    [window.matchMedia('(prefers-color-scheme: dark)').matches]. *)
Record Browser : Type := mkBrowser {
  state : ThemeState;
  audioRef : AudioRef;
  localStorage : gmap string string;
  classList : list string;
  prefersDark : bool;
}.

Definition with_state (s : ThemeState) (w : Browser) : Browser :=
  mkBrowser s (audioRef w) (localStorage w) (classList w) (prefersDark w).

Definition with_audioRef (a : AudioRef) (w : Browser) : Browser :=
  mkBrowser (state w) a (localStorage w) (classList w) (prefersDark w).

Definition with_localStorage (m : gmap string string) (w : Browser) : Browser :=
  mkBrowser (state w) (audioRef w) m (classList w) (prefersDark w).

Definition with_classList (c : list string) (w : Browser) : Browser :=
  mkBrowser (state w) (audioRef w) (localStorage w) c (prefersDark w).

(** ** Computations: state passing with a log of effects *)

Definition M (A : Type) : Type := Browser → A * Browser * list Effect.

#[export] Instance M_ret : MRet M := λ A (a : A) w, (a, w, []).

#[export] Instance M_bind : MBind M := λ A B (f : A → M B) (m : M A) w,
  match m w with
  | (a, w1, e1) =>
      match f a w1 with
      | (b, w2, e2) => (b, w2, e1 ++ e2)
      end
  end.

(** The session after a computation, and the effects it performed. *)
Definition exec {A : Type} (m : M A) (w : Browser) : Browser := (m w).1.2.
Definition emitted {A : Type} (m : M A) (w : Browser) : list Effect := (m w).2.

(** The clips handed to [SoundManager.play], in order. *)
Definition cues (es : list Effect) : list AudioBuffer :=
  omap (λ e, match e with PlaySound b => Some b | _ => None end) es.

(** The writes to [localStorage], in order. *)
Definition writes (es : list Effect) : list (string * string) :=
  omap (λ e, match e with StorageSetItem k v => Some (k, v) | _ => None end) es.

(** *** Primitives *)

Definition getState : M ThemeState := λ w, (state w, w, []).

(** [setState(f)]; [setState(obj)] is [setState (λ _, obj)]. The update is
    taken as applied before the next event is handled. *)
Definition setState (f : ThemeState → ThemeState) : M unit := λ w,
  let s := f (state w) in (tt, with_state s w, [SetState s]).

Definition getAudioRef : M AudioRef := λ w, (audioRef w, w, []).

Definition setAudioRef (f : AudioRef → AudioRef) : M unit := λ w,
  (tt, with_audioRef (f (audioRef w)) w, []).

Definition localStorage_getItem (key : string) : M value := λ w,
  (match localStorage w !! key with
   | Some s => VStr s
   | None => VNull
   end, w, []).

Definition localStorage_setItem (key : string) (v : value) : M unit := λ w,
  let s := ToString v in
  (tt, with_localStorage (<[key := s]> (localStorage w)) w, [StorageSetItem key s]).

Definition matchMedia_prefers_dark : M bool := λ w, (prefersDark w, w, []).

Definition SoundManager_play (b : AudioBuffer) : M unit := λ w,
  (tt, w, [PlaySound b]).

(** [SoundManager.loadSound(url)] only starts the load; the promise resolves
    in a later event ([switchOnLoaded], [switchOffLoaded] below). *)
Definition SoundManager_loadSound (url : string) : M unit := λ w,
  (tt, w, [LoadSound url]).

(** [DOMTokenList.add] and [remove]: an ordered set of tokens. *)
Definition tokens_add (t : string) (l : list string) : list string :=
  if bool_decide (t ∈ l) then l else l ++ [t].

Definition tokens_remove (t : string) (l : list string) : list string :=
  filter (λ x, x ≠ t) l.

Definition classList_add (t : string) : M unit := λ w,
  (tt, with_classList (tokens_add t (classList w)) w, [ClassAdd t]).

Definition classList_remove (t : string) : M unit := λ w,
  (tt, with_classList (tokens_remove t (classList w)) w, [ClassRemove t]).

(** ** The provider (ThemeProvider) *)

Definition DISPLAY_THEMES_ORDER : list value :=
  [VStr "light"; VStr "dark"; VStr "system"].

Definition getActualTheme (displayTheme : value) : M value :=
  if negb (strict_eq displayTheme (VStr "system")) then mret displayTheme
  else
    matches ← matchMedia_prefers_dark;
    if matches : bool then mret (VStr "dark") else mret (VStr "light").

(** The first two lines of [switchTheme]: the entry after the current one in
    [DISPLAY_THEMES_ORDER]. JavaScript's [%] takes the sign of the dividend,
    as [Z.rem] does. *)
Definition nextDisplayTheme (current : value) : value :=
  let currentIndex := findIndex (λ theme, strict_eq theme current) DISPLAY_THEMES_ORDER in
  array_get DISPLAY_THEMES_ORDER
    (Z.rem (currentIndex + 1) (Z.of_nat (length DISPLAY_THEMES_ORDER))).

Definition switchTheme : M unit :=
  st ← getState;
  let displayTheme := nextDisplayTheme (displayTheme st) in
  actualTheme ← getActualTheme displayTheme;
  setState (λ _, mkThemeState displayTheme actualTheme);;
  localStorage_setItem "theme" displayTheme;;
  audio ← getAudioRef;
  match strict_eq actualTheme (VStr "light"), switchOn audio with
  | true, Some b => SoundManager_play b
  | _, _ =>
      match strict_eq actualTheme (VStr "dark"), switchOff audio with
      | true, Some b => SoundManager_play b
      | _, _ => mret tt
      end
  end.

(** The mount effect ([useEffect(..., [])]), called [initialize] in the
    specification. *)
Definition initialize : M unit :=
  SoundManager_loadSound "/sounds/switch-on.mp3";;
  SoundManager_loadSound "/sounds/switch-off.mp3";;
  theme ← localStorage_getItem "theme";
  actualTheme ← getActualTheme theme;
  setState (λ oldState, mkThemeState theme actualTheme).

(** The two [then] callbacks of the mount effect. *)
Definition switchOnLoaded (buffer : AudioBuffer) : M unit :=
  setAudioRef (λ a, mkAudioRef (Some buffer) (switchOff a)).

Definition switchOffLoaded (buffer : AudioBuffer) : M unit :=
  setAudioRef (λ a, mkAudioRef (switchOn a) (Some buffer)).

(** The listener of the media query's [change] event. The effect that
    installs it is re-run whenever [state.displayTheme] changes, so the
    [state] it closes over carries the current preference. *)
Definition detectSystemThemeChange (event_matches : bool) : M unit :=
  st ← getState;
  if strict_eq (displayTheme st) (VStr "system") then
    setState (λ oldState,
      mkThemeState (displayTheme oldState)
                   (if event_matches then VStr "dark" else VStr "light"))
  else mret tt.

(** The effect keyed on [state.actualTheme]. *)
Definition applyActualTheme : M unit :=
  st ← getState;
  if strict_eq (actualTheme st) (VStr "light") then classList_remove "dark"
  else if strict_eq (actualTheme st) (VStr "dark") then classList_add "dark"
  else mret tt.

(** The inline script placed in the document head, run before hydration. *)
Definition bootstrapScript : M unit :=
  currentTheme ← localStorage_getItem "theme";
  if strict_eq currentTheme (VStr "dark") then classList_add "dark"
  else if strict_eq currentTheme (VStr "light") then classList_remove "dark"
  else
    matches ← matchMedia_prefers_dark;
    if matches : bool then
      classList_add "dark";;
      localStorage_setItem "theme" (VStr "system")
    else
      classList_remove "dark";;
      localStorage_setItem "theme" (VStr "system").

(** The value handed to [ThemeContext.Provider]. *)
Record ThemeValue : Type := mkThemeValue {
  value_displayTheme : value;
  value_switchTheme : M unit;
}.

Definition ThemeProvider_value (w : Browser) : ThemeValue :=
  mkThemeValue (displayTheme (state w)) switchTheme.

(** ** useTheme *)

Inductive Error : Type :=
  | mkError (message : string).

(** How a call ends: with a value, or with a thrown error. *)
Inductive completion (A : Type) : Type :=
  | Return (a : A)
  | Throw (e : Error).

Arguments Return {A} a.
Arguments Throw {A} e.

(** [createContext<ThemeValue | undefined>(undefined)]: [None] is
    [undefined]. [useContext] yields the value of the nearest enclosing
    provider, the default when there is none; [providers] lists the values
    of the enclosing providers, innermost first. *)
Definition ThemeContext_default : option ThemeValue := None.

Definition useContext (providers : list (option ThemeValue)) : option ThemeValue :=
  match providers with
  | [] => ThemeContext_default
  | v :: _ => v
  end.

Definition useTheme (providers : list (option ThemeValue))
    : completion (option ThemeValue) :=
  let context := useContext providers in
  match context with
  | None => Throw (mkError "useTheme must be used within a ThemeProvider")
  | Some _ => Return context
  end.

(** ** The specification's vocabulary

    Definitions that follow the words of the specification, to state what
    the code above is compared with. *)
Module Spec.

Inductive ThemePreference : Type := Light | Dark | System.

Inductive ActualTheme : Type := ALight | ADark.

(** [Light → Dark → System → Light]. *)
Definition cycle (p : ThemePreference) : ThemePreference :=
  match p with
  | Light => Dark
  | Dark => System
  | System => Light
  end.

Definition OSscheme (prefers_dark : bool) : ActualTheme :=
  if prefers_dark then ADark else ALight.

Definition resolve (p : ThemePreference) (prefers_dark : bool) : ActualTheme :=
  match p with
  | Light => ALight
  | Dark => ADark
  | System => OSscheme prefers_dark
  end.

(** The stored spelling of a preference and of a resolved theme. *)
Definition pref_name (p : ThemePreference) : string :=
  match p with
  | Light => "light"
  | Dark => "dark"
  | System => "system"
  end.

Definition actual_name (a : ActualTheme) : string :=
  match a with
  | ALight => "light"
  | ADark => "dark"
  end.

(** "switch-on" for a resulting light theme, "switch-off" for a dark one,
    each only if loaded. *)
Definition cue (a : ActualTheme) (audio : AudioRef) : list AudioBuffer :=
  match a with
  | ALight => option_list (switchOn audio)
  | ADark => option_list (switchOff audio)
  end.

End Spec.

Definition pref_value (p : Spec.ThemePreference) : value := VStr (Spec.pref_name p).
Definition actual_value (a : Spec.ActualTheme) : value := VStr (Spec.actual_name a).

(** The cue branch of [switchTheme], as a function of the resulting theme. *)
Definition cue_for (actual : value) (audio : AudioRef) : list AudioBuffer :=
  if strict_eq actual (VStr "light") then option_list (switchOn audio)
  else if strict_eq actual (VStr "dark") then option_list (switchOff audio)
  else [].

(** What [localStorage.getItem('theme')] returns in a session. *)
Definition stored_theme (w : Browser) : value :=
  (localStorage_getItem "theme" w).1.1.

(** ** Sessions used in the examples *)

Definition clip_on : AudioBuffer := DecodedClip "/sounds/switch-on.mp3".
Definition clip_off : AudioBuffer := DecodedClip "/sounds/switch-off.mp3".

(** A freshly mounted provider: nothing read yet, no clip loaded. *)
Definition fresh (store : gmap string string) (os_dark : bool) : Browser :=
  mkBrowser (mkThemeState VNull VNull) (mkAudioRef None None) store [] os_dark.

(** A session with both clips loaded and the given state. *)
Definition loaded (pref actual : value) (store : gmap string string)
    (classes : list string) (os_dark : bool) : Browser :=
  mkBrowser (mkThemeState pref actual) (mkAudioRef (Some clip_on) (Some clip_off))
            store classes os_dark.

(** ** The rendered head and the page as a whole *)

(** The two conditional [meta name="theme-color"] children of [Head], as the
    list of their [content] attributes. *)
Definition themeColorMeta (st : ThemeState) : list string :=
  (if strict_eq (actualTheme st) (VStr "light") then ["#f7f7f7"%string] else [])
  ++ (if strict_eq (actualTheme st) (VStr "dark") then ["#1b1d22"%string] else []).

(** After a render React re-runs the effect keyed on [state.actualTheme]
    when that value differs from the one of the previous render. *)
Definition commitActualTheme (previous : value) : M unit :=
  st ← getState;
  if strict_eq previous (actualTheme st) then mret tt else applyActualTheme.

(** The operating system flips its colour scheme: the media query's
    [matches] changes, then the [change] listeners are called with it. *)
Definition matchMedia_set (matches : bool) : M unit := λ w,
  (tt, mkBrowser (state w) (audioRef w) (localStorage w) (classList w) matches, []).

(** What can happen to a mounted provider. *)
Inductive event : Type :=
  | Click
  | MediaChange (matches : bool)
  | SwitchOnResolved (buffer : AudioBuffer)
  | SwitchOffResolved (buffer : AudioBuffer).

(** The callback run for an event. *)
Definition react (e : event) : M unit :=
  match e with
  | Click => switchTheme
  | MediaChange matches => matchMedia_set matches;; detectSystemThemeChange matches
  | SwitchOnResolved buffer => switchOnLoaded buffer
  | SwitchOffResolved buffer => switchOffLoaded buffer
  end.

(** The callback, then the render it causes. *)
Definition handle (e : event) : M unit :=
  st ← getState;
  react e;;
  commitActualTheme (actualTheme st).

Fixpoint run (es : list event) : M unit :=
  match es with
  | [] => mret tt
  | e :: es' => handle e;; run es'
  end.

(** Mounting: the first render has [useState]'s initial value, whose
    [actualTheme] is [null]; the mount effect runs, then the render it
    causes. *)
Definition mount : M unit :=
  initialize;;
  commitActualTheme VNull.

(** Loading a page: the inline script in the head, then hydration. *)
Definition pageLoad : M unit :=
  bootstrapScript;;
  mount.

(** The clicks in a sequence of events. *)
Fixpoint clicks (es : list event) : nat :=
  match es with
  | [] => 0%nat
  | Click :: es' => S (clicks es')
  | _ :: es' => clicks es'
  end.

(** The clips that arrive during a sequence of events. *)
Fixpoint arrivals (es : list event) : nat :=
  match es with
  | [] => 0%nat
  | SwitchOnResolved _ :: es' => S (arrivals es')
  | SwitchOffResolved _ :: es' => S (arrivals es')
  | _ :: es' => arrivals es'
  end.

(** The preference is one of the three names, the actual theme is what it
    resolves to under the live OS signal, and the stored preference is the
    one in memory. *)
Definition in_sync (w : Browser) : Prop :=
  ∃ p : Spec.ThemePreference,
    displayTheme (state w) = pref_value p
    ∧ actualTheme (state w) = actual_value (Spec.resolve p (prefersDark w))
    ∧ localStorage w !! "theme"%string = Some (Spec.pref_name p).

(** The document carries the [dark] class exactly when the actual theme is
    dark. *)
Definition dark_class_matches (w : Browser) : Prop :=
  "dark"%string ∈ classList w ↔ actualTheme (state w) = VStr "dark".

(** ** Checks on concrete sessions *)

Example nextDisplayTheme_light : nextDisplayTheme (VStr "light") = VStr "dark".
Proof. reflexivity. Qed.

Example nextDisplayTheme_null : nextDisplayTheme VNull = VStr "light".
Proof. reflexivity. Qed.

Example nextDisplayTheme_other : nextDisplayTheme (VStr "purple") = VStr "light".
Proof. reflexivity. Qed.

Example switchTheme_light_to_dark :
  switchTheme (loaded (VStr "light") (VStr "light") {["theme" := "light"]} [] false)
  = (tt, loaded (VStr "dark") (VStr "dark") {["theme" := "dark"]} [] false,
     [SetState (mkThemeState (VStr "dark") (VStr "dark"));
      StorageSetItem "theme" "dark"; PlaySound clip_off]).
Proof. vm_compute. reflexivity. Qed.

Example initialize_light_os_dark :
  initialize (fresh {["theme" := "light"]} true)
  = (tt, with_state (mkThemeState (VStr "light") (VStr "light"))
           (fresh {["theme" := "light"]} true),
     [LoadSound "/sounds/switch-on.mp3"; LoadSound "/sounds/switch-off.mp3";
      SetState (mkThemeState (VStr "light") (VStr "light"))]).
Proof. vm_compute. reflexivity. Qed.

Example bootstrap_absent_os_dark :
  bootstrapScript (fresh ∅ true)
  = (tt, mkBrowser (mkThemeState VNull VNull) (mkAudioRef None None)
           {["theme" := "system"]} ["dark"] true,
     [ClassAdd "dark"; StorageSetItem "theme" "system"]).
Proof. vm_compute. reflexivity. Qed.

(** ** Resolution and the preference cycle *)

Lemma strict_eq_spec (a b : value) : reflect (a = b) (strict_eq a b).
Proof.
  destruct a as [| |s], b as [| |t]; simpl; try (constructor; congruence).
  destruct (String.eqb_spec s t); constructor; congruence.
Qed.

Lemma strict_eq_refl (a : value) : strict_eq a a = true.
Proof. destruct (strict_eq_spec a a); congruence. Qed.

Lemma strict_eq_ne (a b : value) : a ≠ b → strict_eq a b = false.
Proof. destruct (strict_eq_spec a b); congruence. Qed.

(** A value other than ['system'] resolves to itself, whatever it is. *)
Lemma getActualTheme_other (v : value) (w : Browser) :
  v ≠ VStr "system" → getActualTheme v w = (v, w, []).
Proof.
  intros Hv. unfold getActualTheme. rewrite (strict_eq_ne _ _ Hv). reflexivity.
Qed.

Lemma getActualTheme_system (w : Browser) :
  getActualTheme (VStr "system") w
  = (if prefersDark w then VStr "dark" else VStr "light", w, []).
Proof. unfold getActualTheme. simpl. destruct w as [? ? ? ? []]; reflexivity. Qed.

(** On the three preferences [getActualTheme] is the specification's
    [resolve]. *)
Lemma getActualTheme_refines (p : Spec.ThemePreference) (w : Browser) :
  getActualTheme (pref_value p) w
  = (actual_value (Spec.resolve p (prefersDark w)), w, []).
Proof.
  destruct p; simpl.
  - by apply getActualTheme_other.
  - by apply getActualTheme_other.
  - rewrite getActualTheme_system. unfold pref_value. simpl.
    by destruct (prefersDark w).
Qed.

(** C6: [getActualTheme] maps Light to Light, Dark to Dark, and System to
    the OS scheme (Dark when the OS prefers dark, Light otherwise); it is
    pure: it performs no effect, leaves the session as it is, and its result
    is the same in any two sessions with the same OS signal. *)
Theorem getActualTheme_pure :
  (∀ w : Browser, getActualTheme (VStr "light") w = (VStr "light", w, []))
  ∧ (∀ w : Browser, getActualTheme (VStr "dark") w = (VStr "dark", w, []))
  ∧ (∀ w : Browser,
       getActualTheme (VStr "system") w
       = (if prefersDark w then VStr "dark" else VStr "light", w, []))
  ∧ (∀ (v : value) (w : Browser),
       exec (getActualTheme v) w = w ∧ emitted (getActualTheme v) w = [])
  ∧ (∀ (v : value) (w w' : Browser),
       prefersDark w = prefersDark w' →
       (getActualTheme v w).1.1 = (getActualTheme v w').1.1).
Proof.
  split; [intros w; by apply getActualTheme_other|].
  split; [intros w; by apply getActualTheme_other|].
  split; [exact getActualTheme_system|].
  assert (Hrun : ∀ v w, ∃ r,
             getActualTheme v w = (r, w, [])
             ∧ r = if strict_eq v (VStr "system")
                   then (if prefersDark w then VStr "dark" else VStr "light")
                   else v).
  { intros v w. destruct (strict_eq_spec v (VStr "system")) as [->|Hv].
    - eexists. split; [apply getActualTheme_system|done].
    - eexists. split; [by apply getActualTheme_other|done]. }
  split.
  - intros v w. destruct (Hrun v w) as (r & Hr & _).
    unfold exec, emitted. by rewrite Hr.
  - intros v w w' Hos.
    destruct (Hrun v w) as (r & -> & ->), (Hrun v w') as (r' & -> & ->).
    simpl. by rewrite Hos.
Qed.

Lemma getActualTheme_pure_witness :
  prefersDark (fresh ∅ true)
  = prefersDark (loaded (VStr "system") (VStr "dark") {["theme" := "system"]} ["dark"] true)
  ∧ (getActualTheme (VStr "system") (fresh ∅ true)).1.1
    = (getActualTheme (VStr "system")
         (loaded (VStr "system") (VStr "dark") {["theme" := "system"]} ["dark"] true)).1.1.
Proof.
  assert (H : prefersDark (fresh ∅ true)
              = prefersDark (loaded (VStr "system") (VStr "dark")
                               {["theme" := "system"]} ["dark"] true))
    by reflexivity.
  exact (conj H
    (proj2 (proj2 (proj2 (proj2 getActualTheme_pure))) (VStr "system") _ _ H)).
Defined.

(** Whatever the current value, the index computed by [switchTheme] is one
    of [0], [1], [2]. *)
Lemma nextDisplayTheme_cases (v : value) :
  (v = VStr "light" ∧ nextDisplayTheme v = VStr "dark")
  ∨ (v = VStr "dark" ∧ nextDisplayTheme v = VStr "system")
  ∨ (v = VStr "system" ∧ nextDisplayTheme v = VStr "light")
  ∨ (v ≠ VStr "light" ∧ v ≠ VStr "dark" ∧ v ≠ VStr "system"
     ∧ nextDisplayTheme v = VStr "light").
Proof.
  unfold nextDisplayTheme, findIndex, DISPLAY_THEMES_ORDER. cbn [findIndex_from].
  destruct (strict_eq_spec (VStr "light") v) as [<-|H1]; [by left|].
  destruct (strict_eq_spec (VStr "dark") v) as [<-|H2]; [by right; left|].
  destruct (strict_eq_spec (VStr "system") v) as [<-|H3]; [by right; right; left|].
  right; right; right. repeat split; congruence.
Qed.

(** On the three preferences the step is the specification's [cycle]. *)
Lemma nextDisplayTheme_known (p : Spec.ThemePreference) :
  nextDisplayTheme (pref_value p) = pref_value (Spec.cycle p).
Proof. by destruct p. Qed.

(** C7: on the three known preferences the step taken by [switchTheme] is the
    cycle Light, Dark, System, Light; three steps come back to the start; and
    for every current value, known or not, the next preference is one of the
    three names, never [undefined]. *)
Theorem nextDisplayTheme_three_cycle :
  (∀ p : Spec.ThemePreference,
     nextDisplayTheme (pref_value p) = pref_value (Spec.cycle p))
  ∧ (∀ p : Spec.ThemePreference,
       nextDisplayTheme (nextDisplayTheme (nextDisplayTheme (pref_value p)))
       = pref_value p)
  ∧ (∀ v : value, ∃ q : Spec.ThemePreference, nextDisplayTheme v = pref_value q)
  ∧ (∀ v : value, nextDisplayTheme v ≠ VUndefined).
Proof.
  split; [by intros []|]. split; [by intros []|].
  assert (Hq : ∀ v, ∃ q, nextDisplayTheme v = pref_value q).
  { intros v.
    destruct (nextDisplayTheme_cases v) as [[_ ->]|[[_ ->]|[[_ ->]|(_ & _ & _ & ->)]]].
    - by exists Spec.Dark.
    - by exists Spec.System.
    - by exists Spec.Light.
    - by exists Spec.Light. }
  split; [exact Hq|].
  intros v. destruct (Hq v) as [q ->]. done.
Qed.

(** ** switchTheme *)

(** [switchTheme] in one equation: the state update, then the write, then
    the cue picked from the resulting theme. *)
Lemma switchTheme_run (w : Browser) :
  let next := nextDisplayTheme (displayTheme (state w)) in
  let nextActual := (getActualTheme next w).1.1 in
  switchTheme w
  = (tt,
     with_localStorage (<["theme" := ToString next]> (localStorage w))
       (with_state (mkThemeState next nextActual) w),
     [SetState (mkThemeState next nextActual);
      StorageSetItem "theme" (ToString next)]
     ++ (PlaySound <$> cue_for nextActual (audioRef w))).
Proof.
  destruct w as [[d a] [on off] store classes os].
  cbn [state displayTheme].
  destruct (nextDisplayTheme_cases d)
    as [[_ E]|[[_ E]|[[_ E]|(_ & _ & _ & E)]]];
    unfold switchTheme, mbind, M_bind, getState; cbn [state displayTheme];
    rewrite E; destruct os, on, off; reflexivity.
Qed.

(** C1: from a known preference [p], [switchTheme] moves the preference to
    [cycle p] and the actual theme to [resolve (cycle p)], stores [cycle p]
    under the key ['theme'], and emits exactly: the state update, then the
    write, then the cue of the resulting theme (switch-on for Light,
    switch-off for Dark) when that clip is loaded. *)
Theorem switchTheme_known (p : Spec.ThemePreference) (w : Browser) :
  displayTheme (state w) = pref_value p →
  let next := Spec.cycle p in
  let nextActual := Spec.resolve next (prefersDark w) in
  switchTheme w
  = (tt,
     with_localStorage (<["theme" := Spec.pref_name next]> (localStorage w))
       (with_state (mkThemeState (pref_value next) (actual_value nextActual)) w),
     [SetState (mkThemeState (pref_value next) (actual_value nextActual));
      StorageSetItem "theme" (Spec.pref_name next)]
     ++ (PlaySound <$> Spec.cue nextActual (audioRef w))).
Proof.
  intros Hp next nextActual.
  pose proof (switchTheme_run w) as Hrun. cbn zeta in Hrun.
  rewrite Hp, nextDisplayTheme_known, getActualTheme_refines in Hrun.
  rewrite Hrun. subst next nextActual.
  by destruct (Spec.resolve (Spec.cycle p) (prefersDark w)).
Qed.

Lemma switchTheme_known_witness :
  let w := loaded (VStr "light") (VStr "light") {["theme" := "light"]} [] true in
  displayTheme (state w) = pref_value Spec.Light
  ∧ switchTheme w
    = (tt,
       with_localStorage (<["theme" := "dark"]> (localStorage w))
         (with_state (mkThemeState (VStr "dark") (VStr "dark")) w),
       [SetState (mkThemeState (VStr "dark") (VStr "dark"));
        StorageSetItem "theme" "dark"; PlaySound clip_off]).
Proof.
  split; [reflexivity|].
  apply (switchTheme_known Spec.Light
           (loaded (VStr "light") (VStr "light") {["theme" := "light"]} [] true)).
  reflexivity.
Defined.

(** C8: while the preference is still [null], [findIndex] answers [-1], so
    the switch lands on index 0: the preference and the actual theme become
    Light, ["light"] is stored, and the switch-on cue plays if loaded. *)
Theorem switchTheme_unset (w : Browser) :
  displayTheme (state w) = VNull →
  nextDisplayTheme (displayTheme (state w)) = array_get DISPLAY_THEMES_ORDER 0
  ∧ switchTheme w
    = (tt,
       with_localStorage (<["theme" := "light"]> (localStorage w))
         (with_state (mkThemeState (VStr "light") (VStr "light")) w),
       [SetState (mkThemeState (VStr "light") (VStr "light"));
        StorageSetItem "theme" "light"]
       ++ (PlaySound <$> option_list (switchOn (audioRef w)))).
Proof.
  intros Hnull. split; [by rewrite Hnull|].
  pose proof (switchTheme_run w) as Hrun. cbn zeta in Hrun.
  rewrite Hnull in Hrun. rewrite Hrun. reflexivity.
Qed.

Lemma switchTheme_unset_witness :
  let w := mkBrowser (mkThemeState VNull VNull) (mkAudioRef (Some clip_on) None)
                     ∅ [] true in
  displayTheme (state w) = VNull
  ∧ switchTheme w
    = (tt,
       with_localStorage (<["theme" := "light"]> (localStorage w))
         (with_state (mkThemeState (VStr "light") (VStr "light")) w),
       [SetState (mkThemeState (VStr "light") (VStr "light"));
        StorageSetItem "theme" "light"; PlaySound clip_on]).
Proof.
  split; [reflexivity|].
  apply (switchTheme_unset
           (mkBrowser (mkThemeState VNull VNull) (mkAudioRef (Some clip_on) None)
                      ∅ [] true)).
  reflexivity.
Defined.

Lemma cues_PlaySound (l : list AudioBuffer) : cues (PlaySound <$> l) = l.
Proof. unfold cues. induction l as [|b l IH]; [done|]. cbn. by rewrite IH. Qed.

(** Dark to System while the OS prefers dark: the actual theme stays Dark,
    the preference changes, and the switch-off cue is played. *)
Lemma switchTheme_same_actual_plays :
  let w := loaded (VStr "dark") (VStr "dark") {["theme" := "dark"]} ["dark"] true in
  actualTheme (state (exec switchTheme w)) = actualTheme (state w)
  ∧ displayTheme (state (exec switchTheme w)) ≠ displayTheme (state w)
  ∧ cues (emitted switchTheme w) = [clip_off]
  ∧ cues (emitted switchTheme w) ≠ [].
Proof. vm_compute. split; [reflexivity|]. split; [congruence|]. split; [reflexivity|congruence]. Qed.

(** C3, amended: a switch from a known preference that leaves the actual
    theme as it was while the preference changes still plays the cue of the
    resulting theme whenever that clip is loaded: switch-on for Light,
    switch-off for Dark. It is silent exactly when that clip is not loaded. *)
Theorem switchTheme_cue_by_result (p : Spec.ThemePreference) (w : Browser) :
  displayTheme (state w) = pref_value p →
  actualTheme (state (exec switchTheme w)) = actualTheme (state w) →
  displayTheme (state (exec switchTheme w)) ≠ displayTheme (state w) →
  let nextActual := Spec.resolve (Spec.cycle p) (prefersDark w) in
  actualTheme (state (exec switchTheme w)) = actual_value nextActual
  ∧ cues (emitted switchTheme w) = Spec.cue nextActual (audioRef w)
  ∧ (cues (emitted switchTheme w) = []
     ↔ match nextActual with
       | Spec.ALight => switchOn (audioRef w) = None
       | Spec.ADark => switchOff (audioRef w) = None
       end).
Proof.
  intros Hp _ _ nextActual.
  pose proof (switchTheme_run w) as Hrun. cbn zeta in Hrun.
  rewrite Hp, nextDisplayTheme_known, getActualTheme_refines in Hrun.
  cbn [fst] in Hrun. fold nextActual in Hrun.
  unfold exec, emitted. rewrite Hrun. cbn [fst snd].
  assert (Hc : cues ([SetState (mkThemeState (pref_value (Spec.cycle p))
                                             (actual_value nextActual));
                      StorageSetItem "theme" (ToString (pref_value (Spec.cycle p)))]
                     ++ (PlaySound <$> cue_for (actual_value nextActual) (audioRef w)))
               = Spec.cue nextActual (audioRef w)).
  { cbn. rewrite cues_PlaySound. by destruct nextActual. }
  rewrite Hc. split; [done|]. split; [done|].
  destruct nextActual; simpl.
  - destruct (switchOn (audioRef w)); simpl; split; congruence.
  - destruct (switchOff (audioRef w)); simpl; split; congruence.
Qed.

Lemma switchTheme_cue_by_result_witness :
  let w := loaded (VStr "dark") (VStr "dark") {["theme" := "dark"]} ["dark"] true in
  displayTheme (state w) = pref_value Spec.Dark
  ∧ actualTheme (state (exec switchTheme w)) = actualTheme (state w)
  ∧ displayTheme (state (exec switchTheme w)) ≠ displayTheme (state w)
  ∧ actualTheme (state (exec switchTheme w)) = VStr "dark"
  ∧ cues (emitted switchTheme w) = [clip_off].
Proof.
  assert (H1 : displayTheme (state (loaded (VStr "dark") (VStr "dark")
                 {["theme" := "dark"]} ["dark"] true)) = pref_value Spec.Dark)
    by reflexivity.
  assert (H2 : actualTheme (state (exec switchTheme (loaded (VStr "dark") (VStr "dark")
                 {["theme" := "dark"]} ["dark"] true)))
               = actualTheme (state (loaded (VStr "dark") (VStr "dark")
                 {["theme" := "dark"]} ["dark"] true)))
    by (vm_compute; reflexivity).
  assert (H3 : displayTheme (state (exec switchTheme (loaded (VStr "dark") (VStr "dark")
                 {["theme" := "dark"]} ["dark"] true)))
               ≠ displayTheme (state (loaded (VStr "dark") (VStr "dark")
                 {["theme" := "dark"]} ["dark"] true)))
    by (vm_compute; congruence).
  pose proof (switchTheme_cue_by_result Spec.Dark _ H1 H2 H3) as (Ha & Hc & _).
  exact (conj H1 (conj H2 (conj H3 (conj Ha Hc)))).
Defined.

(** ** The mount effect *)

Lemma getActualTheme_result (v : value) (w : Browser) :
  ∃ r, getActualTheme v w = (r, w, []).
Proof.
  destruct (strict_eq_spec v (VStr "system")) as [->|Hv].
  - eexists. apply getActualTheme_system.
  - eexists. by apply getActualTheme_other.
Qed.

Lemma initialize_run (w : Browser) :
  let theme := stored_theme w in
  let actual := (getActualTheme theme w).1.1 in
  initialize w
  = (tt, with_state (mkThemeState theme actual) w,
     [LoadSound "/sounds/switch-on.mp3"; LoadSound "/sounds/switch-off.mp3";
      SetState (mkThemeState theme actual)]).
Proof.
  unfold initialize, stored_theme, mbind, M_bind, SoundManager_loadSound,
    localStorage_getItem.
  cbn [fst snd].
  destruct (localStorage w !! "theme"%string) as [s|];
    match goal with
    | |- context [getActualTheme ?v w] =>
        destruct (getActualTheme_result v w) as [r ->]
    end; reflexivity.
Qed.

(** Nothing stored, the OS prefers dark: the actual theme is not derived
    from the OS signal (it would be Dark), it is [null]. *)
Lemma initialize_absent_not_resolved :
  let w := fresh ∅ true in
  localStorage w !! "theme"%string = None
  ∧ prefersDark w = true
  ∧ actualTheme (state (exec initialize w)) = VNull
  ∧ actualTheme (state (exec initialize w)) ≠ VStr "dark".
Proof.
  vm_compute. split; [reflexivity|]. split; [reflexivity|].
  split; [reflexivity|congruence].
Qed.

(** C2, amended: when nothing is stored at the time the mount effect reads
    it, the preference is not resolved as System: the preference and the
    actual theme are both set to [null] whatever the OS signal, and the mount
    effect writes nothing to storage. The OS-derived initial theme comes from
    the inline script: run first on an empty store it persists ["system"],
    so that the mount effect then reads ["system"], resolves it from the OS
    signal, and itself writes nothing. *)
Theorem initialize_absent (w : Browser) :
  localStorage w !! "theme"%string = None →
  (initialize w
   = (tt, with_state (mkThemeState VNull VNull) w,
      [LoadSound "/sounds/switch-on.mp3"; LoadSound "/sounds/switch-off.mp3";
       SetState (mkThemeState VNull VNull)])
   ∧ localStorage (exec initialize w) = localStorage w
   ∧ writes (emitted initialize w) = [])
  ∧ (let w' := exec bootstrapScript w in
     localStorage w' !! "theme"%string = Some "system"%string
     ∧ state (exec initialize w')
       = mkThemeState (VStr "system")
           (if prefersDark w then VStr "dark" else VStr "light")
     ∧ localStorage (exec initialize w') = localStorage w'
     ∧ writes (emitted initialize w') = []).
Proof.
  intros Habs. split.
  - pose proof (initialize_run w) as Hrun. cbn zeta in Hrun.
    assert (Hst : stored_theme w = VNull).
    { unfold stored_theme, localStorage_getItem. by rewrite Habs. }
    rewrite Hst in Hrun. rewrite (getActualTheme_other VNull) in Hrun by done.
    unfold exec, emitted. rewrite Hrun. done.
  - cbn zeta.
    assert (Hboot : exec bootstrapScript w
                    = with_localStorage (<["theme"%string := "system"%string]> (localStorage w))
                        (with_classList
                           ((if prefersDark w then tokens_add "dark"
                             else tokens_remove "dark") (classList w)) w)).
    { destruct w as [st au store classes os]. simpl in Habs.
      unfold exec, bootstrapScript, mbind, M_bind, localStorage_getItem.
      cbn [localStorage]. rewrite Habs. by destruct os. }
    rewrite Hboot.
    set (w' := with_localStorage _ _).
    assert (Hlk : localStorage w' !! "theme"%string = Some "system"%string).
    { subst w'. cbn [localStorage with_localStorage]. apply lookup_insert_eq. }
    split; [exact Hlk|].
    pose proof (initialize_run w') as Hrun. cbn zeta in Hrun.
    assert (Hst : stored_theme w' = VStr "system").
    { unfold stored_theme, localStorage_getItem. by rewrite Hlk. }
    rewrite Hst, getActualTheme_system in Hrun.
    unfold exec, emitted. rewrite Hrun. cbn [fst snd].
    split; [|done]. subst w'. by destruct w.
Qed.

Lemma initialize_absent_witness :
  localStorage (fresh ∅ true) !! "theme"%string = None
  ∧ state (exec initialize (fresh ∅ true)) = mkThemeState VNull VNull
  ∧ writes (emitted initialize (fresh ∅ true)) = []
  ∧ state (exec initialize (exec bootstrapScript (fresh ∅ true)))
    = mkThemeState (VStr "system") (VStr "dark").
Proof.
  assert (H : localStorage (fresh ∅ true) !! "theme"%string = None) by reflexivity.
  pose proof (initialize_absent (fresh ∅ true) H) as [(Hrun & _ & Hw) (_ & Hst & _)].
  split; [exact H|]. split; [|split; [exact Hw|exact Hst]].
  unfold exec. rewrite Hrun. reflexivity.
Defined.

(** C10: the mount effect does not validate what it reads: whatever
    [getItem] returns, other than ["system"], is copied as it is into both the
    preference and the actual theme; so any stored string lands in the actual
    theme, also one that is neither ["light"] nor ["dark"], and both fields
    are [null] when nothing is stored. *)
Theorem initialize_no_validation (w : Browser) :
  (∀ s : string,
     localStorage w !! "theme"%string = Some s → s ≠ "system"%string →
     state (exec initialize w) = mkThemeState (VStr s) (VStr s))
  ∧ (localStorage w !! "theme"%string = None →
     state (exec initialize w) = mkThemeState VNull VNull)
  ∧ (stored_theme w ≠ VStr "system" →
     state (exec initialize w) = mkThemeState (stored_theme w) (stored_theme w)).
Proof.
  assert (Hgen : stored_theme w ≠ VStr "system" →
                 state (exec initialize w)
                 = mkThemeState (stored_theme w) (stored_theme w)).
  { intros Hne. pose proof (initialize_run w) as Hrun. cbn zeta in Hrun.
    rewrite (getActualTheme_other _ _ Hne) in Hrun.
    unfold exec. by rewrite Hrun. }
  split; [|split; [|exact Hgen]].
  - intros s Hs Hne.
    assert (Hst : stored_theme w = VStr s).
    { unfold stored_theme, localStorage_getItem. by rewrite Hs. }
    rewrite Hst in Hgen. apply Hgen. congruence.
  - intros Habs.
    assert (Hst : stored_theme w = VNull).
    { unfold stored_theme, localStorage_getItem. by rewrite Habs. }
    rewrite Hst in Hgen. by apply Hgen.
Qed.

Lemma initialize_no_validation_witness :
  localStorage (fresh {["theme" := "purple"]} false) !! "theme"%string = Some "purple"%string
  ∧ "purple"%string ≠ "system"%string
  ∧ state (exec initialize (fresh {["theme" := "purple"]} false))
    = mkThemeState (VStr "purple") (VStr "purple").
Proof.
  assert (H1 : localStorage (fresh {["theme" := "purple"]} false) !! "theme"%string
               = Some "purple"%string) by reflexivity.
  assert (H2 : "purple"%string ≠ "system"%string) by discriminate.
  exact (conj H1 (conj H2
    (proj1 (initialize_no_validation (fresh {["theme" := "purple"]} false))
       "purple"%string H1 H2))).
Defined.

(** ** The class list and the inline script *)

Lemma tokens_add_elem (t : string) (l : list string) : t ∈ tokens_add t l.
Proof.
  unfold tokens_add. case_bool_decide as Hin; [done|].
  apply elem_of_app. right. by apply list_elem_of_singleton.
Qed.

Lemma tokens_remove_not_elem (t : string) (l : list string) : t ∉ tokens_remove t l.
Proof.
  unfold tokens_remove. intros Hin. apply list_elem_of_filter in Hin as [Hne _].
  by apply Hne.
Qed.

Lemma tokens_add_idemp (t : string) (l : list string) :
  tokens_add t (tokens_add t l) = tokens_add t l.
Proof.
  unfold tokens_add at 1. by rewrite (bool_decide_eq_true_2 _ (tokens_add_elem t l)).
Qed.

Lemma tokens_remove_idemp (t : string) (l : list string) :
  tokens_remove t (tokens_remove t l) = tokens_remove t l.
Proof.
  unfold tokens_remove. induction l as [|x l IH]; [done|].
  rewrite filter_cons. case_decide as Hx.
  - rewrite filter_cons. rewrite decide_True by done. by rewrite IH.
  - exact IH.
Qed.

Lemma applyActualTheme_run (w : Browser) :
  applyActualTheme w
  = if strict_eq (actualTheme (state w)) (VStr "light")
    then (tt, with_classList (tokens_remove "dark" (classList w)) w, [ClassRemove "dark"])
    else if strict_eq (actualTheme (state w)) (VStr "dark")
    then (tt, with_classList (tokens_add "dark" (classList w)) w, [ClassAdd "dark"])
    else (tt, w, []).
Proof.
  unfold applyActualTheme, mbind, M_bind, getState.
  cbn [fst snd].
  by destruct (strict_eq (actualTheme (state w)) (VStr "light")),
              (strict_eq (actualTheme (state w)) (VStr "dark")).
Qed.

(** X13: applying the same actual theme twice leaves the session, class
    list included, exactly as applying it once does, whatever the actual
    theme and whatever tokens the class list holds. *)
Lemma applyActualTheme_idemp (w : Browser) :
  exec applyActualTheme (exec applyActualTheme w) = exec applyActualTheme w.
Proof.
  unfold exec. rewrite (applyActualTheme_run w).
  destruct (strict_eq (actualTheme (state w)) (VStr "light")) eqn:El.
  - cbn [fst snd]. rewrite applyActualTheme_run.
    cbn [state with_classList]. rewrite El.
    cbn [fst snd with_classList classList]. by rewrite tokens_remove_idemp.
  - destruct (strict_eq (actualTheme (state w)) (VStr "dark")) eqn:Ed.
    + cbn [fst snd]. rewrite applyActualTheme_run.
      cbn [state with_classList]. rewrite El, Ed.
      cbn [fst snd with_classList classList]. by rewrite tokens_add_idemp.
    + cbn [fst snd]. rewrite applyActualTheme_run. by rewrite El, Ed.
Qed.

(** C4: the inline script follows the decision table. Stored ["dark"]: the
    dark class is added and nothing is written. Stored ["light"]: the dark
    class is removed and nothing is written. Anything else, or nothing
    stored: the dark class is added when the OS prefers dark and removed when
    it does not, and in both cases ["system"] is then written under
    ['theme']. In every row the dark class ends up present exactly when the
    row says dark. *)
Theorem bootstrapScript_table (w : Browser) :
  (localStorage w !! "theme"%string = Some "dark"%string →
     bootstrapScript w
     = (tt, with_classList (tokens_add "dark" (classList w)) w, [ClassAdd "dark"])
     ∧ "dark"%string ∈ classList (exec bootstrapScript w)
     ∧ localStorage (exec bootstrapScript w) = localStorage w)
  ∧ (localStorage w !! "theme"%string = Some "light"%string →
     bootstrapScript w
     = (tt, with_classList (tokens_remove "dark" (classList w)) w, [ClassRemove "dark"])
     ∧ ("dark"%string ∉ classList (exec bootstrapScript w))
     ∧ localStorage (exec bootstrapScript w) = localStorage w)
  ∧ (localStorage w !! "theme"%string ≠ Some "dark"%string →
     localStorage w !! "theme"%string ≠ Some "light"%string →
     prefersDark w = true →
     bootstrapScript w
     = (tt,
        with_localStorage (<["theme"%string := "system"%string]> (localStorage w))
          (with_classList (tokens_add "dark" (classList w)) w),
        [ClassAdd "dark"; StorageSetItem "theme" "system"])
     ∧ "dark"%string ∈ classList (exec bootstrapScript w)
     ∧ localStorage (exec bootstrapScript w) !! "theme"%string = Some "system"%string)
  ∧ (localStorage w !! "theme"%string ≠ Some "dark"%string →
     localStorage w !! "theme"%string ≠ Some "light"%string →
     prefersDark w = false →
     bootstrapScript w
     = (tt,
        with_localStorage (<["theme"%string := "system"%string]> (localStorage w))
          (with_classList (tokens_remove "dark" (classList w)) w),
        [ClassRemove "dark"; StorageSetItem "theme" "system"])
     ∧ ("dark"%string ∉ classList (exec bootstrapScript w))
     ∧ localStorage (exec bootstrapScript w) !! "theme"%string = Some "system"%string).
Proof.
  destruct w as [st au store classes os]. cbn [localStorage prefersDark classList].
  assert (Hother : store !! "theme"%string ≠ Some "dark"%string →
                   store !! "theme"%string ≠ Some "light"%string →
                   (bootstrapScript (mkBrowser st au store classes os)
                    = if os
                      then (tt, mkBrowser st au (<["theme"%string := "system"%string]> store)
                                  (tokens_add "dark" classes) os,
                            [ClassAdd "dark"; StorageSetItem "theme" "system"])
                      else (tt, mkBrowser st au (<["theme"%string := "system"%string]> store)
                                  (tokens_remove "dark" classes) os,
                            [ClassRemove "dark"; StorageSetItem "theme" "system"]))).
  { intros Hd Hl.
    unfold bootstrapScript, mbind, M_bind, localStorage_getItem. cbn [localStorage].
    destruct (store !! "theme"%string) as [s|] eqn:Es.
    - rewrite (strict_eq_ne (VStr s) (VStr "dark")) by congruence.
      rewrite (strict_eq_ne (VStr s) (VStr "light")) by congruence.
      by destruct os.
    - by destruct os. }
  repeat apply conj.
  - intros Hs.
    assert (Hrun : bootstrapScript (mkBrowser st au store classes os)
                   = (tt, mkBrowser st au store (tokens_add "dark" classes) os,
                      [ClassAdd "dark"])).
    { unfold bootstrapScript, mbind, M_bind, localStorage_getItem.
      cbn [localStorage]. by rewrite Hs. }
    unfold exec. rewrite Hrun. cbn [fst snd classList localStorage].
    split; [done|]. split; [apply tokens_add_elem|done].
  - intros Hs.
    assert (Hrun : bootstrapScript (mkBrowser st au store classes os)
                   = (tt, mkBrowser st au store (tokens_remove "dark" classes) os,
                      [ClassRemove "dark"])).
    { unfold bootstrapScript, mbind, M_bind, localStorage_getItem.
      cbn [localStorage]. by rewrite Hs. }
    unfold exec. rewrite Hrun. cbn [fst snd classList localStorage].
    split; [done|]. split; [apply tokens_remove_not_elem|done].
  - intros Hd Hl ->. unfold exec. rewrite (Hother Hd Hl).
    cbn [fst snd classList localStorage].
    split; [done|]. split; [apply tokens_add_elem|apply lookup_insert_eq].
  - intros Hd Hl ->. unfold exec. rewrite (Hother Hd Hl).
    cbn [fst snd classList localStorage].
    split; [done|]. split; [apply tokens_remove_not_elem|apply lookup_insert_eq].
Qed.

Lemma bootstrapScript_table_witness :
  localStorage (fresh {["theme" := "auto"]} true) !! "theme"%string ≠ Some "dark"%string
  ∧ localStorage (fresh {["theme" := "auto"]} true) !! "theme"%string ≠ Some "light"%string
  ∧ prefersDark (fresh {["theme" := "auto"]} true) = true
  ∧ "dark"%string ∈ classList (exec bootstrapScript (fresh {["theme" := "auto"]} true))
  ∧ localStorage (exec bootstrapScript (fresh {["theme" := "auto"]} true)) !! "theme"%string
    = Some "system"%string.
Proof.
  assert (H1 : localStorage (fresh {["theme" := "auto"]} true) !! "theme"%string
               ≠ Some "dark"%string) by (vm_compute; congruence).
  assert (H2 : localStorage (fresh {["theme" := "auto"]} true) !! "theme"%string
               ≠ Some "light"%string) by (vm_compute; congruence).
  assert (H3 : prefersDark (fresh {["theme" := "auto"]} true) = true) by reflexivity.
  destruct (bootstrapScript_table (fresh {["theme" := "auto"]} true))
    as (_ & _ & Hrow & _).
  destruct (Hrow H1 H2 H3) as (_ & Hin & Hst).
  exact (conj H1 (conj H2 (conj H3 (conj Hin Hst)))).
Defined.

(** ** The OS change listener *)

(** C5: on an OS colour-scheme notification, if the preference is
    ["system"] the listener sets the actual theme to Dark when the event
    matches and to Light otherwise, and does nothing else: the preference,
    the storage, the audio ref and the class list are as before, and the only
    effect is the state update (no write, no cue). If the preference is
    anything else, whether or not it ever was ["system"], the notification is
    dropped: the session is unchanged and no effect is performed. *)
Theorem detectSystemThemeChange_guard (event_matches : bool) (w : Browser) :
  (displayTheme (state w) = VStr "system" →
     let actual := if event_matches then VStr "dark" else VStr "light" in
     detectSystemThemeChange event_matches w
     = (tt, with_state (mkThemeState (VStr "system") actual) w,
        [SetState (mkThemeState (VStr "system") actual)])
     ∧ displayTheme (state (exec (detectSystemThemeChange event_matches) w))
       = displayTheme (state w)
     ∧ localStorage (exec (detectSystemThemeChange event_matches) w) = localStorage w
     ∧ writes (emitted (detectSystemThemeChange event_matches) w) = []
     ∧ cues (emitted (detectSystemThemeChange event_matches) w) = [])
  ∧ (displayTheme (state w) ≠ VStr "system" →
     detectSystemThemeChange event_matches w = (tt, w, [])
     ∧ state (exec (detectSystemThemeChange event_matches) w) = state w).
Proof.
  split.
  - intros Hsys actual.
    assert (Hrun : detectSystemThemeChange event_matches w
                   = (tt, with_state (mkThemeState (VStr "system") actual) w,
                      [SetState (mkThemeState (VStr "system") actual)])).
    { unfold detectSystemThemeChange, mbind, M_bind, getState, setState.
      cbn [fst snd]. rewrite Hsys, strict_eq_refl. cbn beta iota.
      rewrite Hsys. reflexivity. }
    unfold exec, emitted. rewrite Hrun. cbn [fst snd].
    split; [done|]. split; [by rewrite Hsys|]. done.
  - intros Hne.
    assert (Hrun : detectSystemThemeChange event_matches w = (tt, w, [])).
    { unfold detectSystemThemeChange, mbind, M_bind, getState.
      cbn [fst snd]. by rewrite (strict_eq_ne _ _ Hne). }
    unfold exec. by rewrite Hrun.
Qed.

Lemma detectSystemThemeChange_guard_witness :
  (displayTheme (state (loaded (VStr "system") (VStr "light") {["theme" := "system"]} [] false))
   = VStr "system"
   ∧ state (exec (detectSystemThemeChange true)
              (loaded (VStr "system") (VStr "light") {["theme" := "system"]} [] false))
     = mkThemeState (VStr "system") (VStr "dark"))
  ∧ (displayTheme (state (loaded (VStr "light") (VStr "light") {["theme" := "light"]} [] false))
     ≠ VStr "system"
     ∧ state (exec (detectSystemThemeChange true)
                (loaded (VStr "light") (VStr "light") {["theme" := "light"]} [] false))
       = mkThemeState (VStr "light") (VStr "light")).
Proof.
  assert (H1 : displayTheme (state (loaded (VStr "system") (VStr "light")
                 {["theme" := "system"]} [] false)) = VStr "system") by reflexivity.
  assert (H2 : displayTheme (state (loaded (VStr "light") (VStr "light")
                 {["theme" := "light"]} [] false)) ≠ VStr "system") by discriminate.
  destruct (proj1 (detectSystemThemeChange_guard true _) H1) as (Hrun & _).
  destruct (proj2 (detectSystemThemeChange_guard true _) H2) as (_ & Hst).
  split; split; [exact H1| |exact H2|exact Hst].
  unfold exec. rewrite Hrun. reflexivity.
Defined.

(** ** useTheme *)

(** C9: where no provider encloses the caller, so that [useContext] yields
    the default [undefined], [useTheme] throws the error "useTheme must be
    used within a ThemeProvider"; and whenever [useTheme] returns, what it
    returns is a context value, never [undefined]. *)
Theorem useTheme_outside_provider (providers : list (option ThemeValue)) :
  (useContext providers = None →
     useTheme providers
     = Throw (mkError "useTheme must be used within a ThemeProvider"))
  ∧ (providers = [] →
     useTheme providers
     = Throw (mkError "useTheme must be used within a ThemeProvider"))
  ∧ (∀ r, useTheme providers = Return r → is_Some r ∧ r = useContext providers).
Proof.
  assert (Hnone : useContext providers = None →
                  useTheme providers
                  = Throw (mkError "useTheme must be used within a ThemeProvider")).
  { intros H. unfold useTheme. by rewrite H. }
  split; [exact Hnone|]. split.
  - intros ->. by apply Hnone.
  - intros r. unfold useTheme.
    destruct (useContext providers) as [v|]; [|discriminate].
    intros [= <-]. split; [by exists v|done].
Qed.

Lemma useTheme_outside_provider_witness :
  useContext [] = None
  ∧ useTheme [] = Throw (mkError "useTheme must be used within a ThemeProvider").
Proof.
  assert (H : useContext [] = None) by reflexivity.
  exact (conj H (proj1 (useTheme_outside_provider []) H)).
Defined.

Example useTheme_inside_provider (w : Browser) :
  useTheme [Some (ThemeProvider_value w)] = Return (Some (ThemeProvider_value w)).
Proof. reflexivity. Qed.

(** ** Sequencing *)

Lemma exec_bind {A B : Type} (m : M A) (f : A → M B) (w : Browser) :
  exec (m ≫= f) w = exec (f (m w).1.1) (exec m w).
Proof.
  unfold exec, mbind, M_bind.
  destruct (m w) as [[a w1] e1]. cbn [fst snd].
  by destruct (f a w1) as [[b w2] e2].
Qed.

Lemma emitted_bind {A B : Type} (m : M A) (f : A → M B) (w : Browser) :
  emitted (m ≫= f) w = emitted m w ++ emitted (f (m w).1.1) (exec m w).
Proof.
  unfold exec, emitted, mbind, M_bind.
  destruct (m w) as [[a w1] e1]. cbn [fst snd].
  by destruct (f a w1) as [[b w2] e2].
Qed.

Lemma writes_app (es es' : list Effect) : writes (es ++ es') = writes es ++ writes es'.
Proof. unfold writes. apply omap_app. Qed.

Lemma cues_app (es es' : list Effect) : cues (es ++ es') = cues es ++ cues es'.
Proof. unfold cues. apply omap_app. Qed.

Lemma writes_PlaySound (l : list AudioBuffer) : writes (PlaySound <$> l) = [].
Proof. unfold writes. by induction l as [|b l IH]. Qed.

(** ** What one switch does, from any state *)

Lemma nextDisplayTheme_pref (v : value) :
  ∃ q : Spec.ThemePreference, nextDisplayTheme v = pref_value q.
Proof.
  destruct (nextDisplayTheme_cases v) as [[_ ->]|[[_ ->]|[[_ ->]|(_ & _ & _ & ->)]]].
  - by exists Spec.Dark.
  - by exists Spec.System.
  - by exists Spec.Light.
  - by exists Spec.Light.
Qed.

Lemma cue_for_actual (a : Spec.ActualTheme) (audio : AudioRef) :
  cue_for (actual_value a) audio = Spec.cue a audio.
Proof. by destruct a. Qed.

Lemma switchTheme_any (w : Browser) :
  ∃ q : Spec.ThemePreference,
    nextDisplayTheme (displayTheme (state w)) = pref_value q
    ∧ switchTheme w
      = (tt,
         with_localStorage (<["theme"%string := Spec.pref_name q]> (localStorage w))
           (with_state (mkThemeState (pref_value q)
                          (actual_value (Spec.resolve q (prefersDark w)))) w),
         [SetState (mkThemeState (pref_value q)
                      (actual_value (Spec.resolve q (prefersDark w))));
          StorageSetItem "theme" (Spec.pref_name q)]
         ++ (PlaySound <$> Spec.cue (Spec.resolve q (prefersDark w)) (audioRef w))).
Proof.
  destruct (nextDisplayTheme_pref (displayTheme (state w))) as [q Hq].
  exists q. split; [exact Hq|].
  pose proof (switchTheme_run w) as Hrun. cbn zeta in Hrun.
  rewrite Hq, getActualTheme_refines in Hrun. cbn [fst] in Hrun.
  by rewrite cue_for_actual in Hrun.
Qed.

(** ** The effect keyed on the actual theme *)

Lemma tokens_add_in (t : string) (l : list string) : t ∈ l → tokens_add t l = l.
Proof. intros Hin. unfold tokens_add. by rewrite bool_decide_eq_true_2. Qed.

Lemma tokens_remove_notin (t : string) (l : list string) :
  t ∉ l → tokens_remove t l = l.
Proof.
  unfold tokens_remove. induction l as [|x l IH]; [done|].
  intros Hnin. apply not_elem_of_cons in Hnin as [Hne Hnin].
  rewrite filter_cons, decide_True by done. by rewrite IH.
Qed.

Lemma tokens_add_other (t u : string) (l : list string) :
  u ≠ t → u ∈ tokens_add t l ↔ u ∈ l.
Proof.
  intros Hne. unfold tokens_add. case_bool_decide; [done|].
  rewrite elem_of_app, list_elem_of_singleton.
  split; [intros [Hin|Heq]; [done|congruence] | by left].
Qed.

Lemma tokens_remove_other (t u : string) (l : list string) :
  u ≠ t → u ∈ tokens_remove t l ↔ u ∈ l.
Proof.
  intros Hne. unfold tokens_remove. rewrite list_elem_of_filter.
  split; [by intros [_ Hin] | by split].
Qed.

(** X1: the effect keyed on the actual theme touches nothing but the [dark]
    token of the class list: every other token is present after it exactly
    when it was before, whatever the state. For the actual theme ["dark"]
    the token is present afterwards, for ["light"] it is absent, and for any
    other value ([null], or a string copied from storage) the class list is
    left as it is and no effect is performed. State, storage, audio ref and
    OS signal are never changed. *)
Theorem applyActualTheme_frame (w : Browser) :
  (∀ t : string, t ≠ "dark"%string →
     t ∈ classList (exec applyActualTheme w) ↔ t ∈ classList w)
  ∧ (actualTheme (state w) = VStr "dark" →
     "dark"%string ∈ classList (exec applyActualTheme w))
  ∧ (actualTheme (state w) = VStr "light" →
     "dark"%string ∉ classList (exec applyActualTheme w))
  ∧ (actualTheme (state w) ≠ VStr "dark" → actualTheme (state w) ≠ VStr "light" →
     applyActualTheme w = (tt, w, []))
  ∧ with_classList (classList w) (exec applyActualTheme w) = w.
Proof.
  unfold exec. rewrite applyActualTheme_run.
  destruct (strict_eq_spec (actualTheme (state w)) (VStr "light")) as [Hl|Hl].
  - cbn [fst snd classList with_classList].
    split; [intros t Ht; by apply tokens_remove_other|].
    split; [intros Hd; congruence|].
    split; [intros _; apply tokens_remove_not_elem|].
    split; [congruence|by destruct w].
  - destruct (strict_eq_spec (actualTheme (state w)) (VStr "dark")) as [Hd|Hd].
    + cbn [fst snd classList with_classList].
      split; [intros t Ht; by apply tokens_add_other|].
      split; [intros _; apply tokens_add_elem|].
      split; [congruence|]. split; [congruence|by destruct w].
    + cbn [fst snd]. split; [done|]. split; [congruence|].
      split; [congruence|]. split; [done|by destruct w].
Qed.

Lemma applyActualTheme_frame_witness :
  actualTheme (state (loaded (VStr "dark") (VStr "dark") ∅ ["prose"%string] false))
  = VStr "dark"
  ∧ "dark"%string
    ∈ classList (exec applyActualTheme
                   (loaded (VStr "dark") (VStr "dark") ∅ ["prose"%string] false)).
Proof.
  assert (H : actualTheme (state (loaded (VStr "dark") (VStr "dark") ∅
                ["prose"%string] false)) = VStr "dark") by reflexivity.
  exact (conj H (proj1 (proj2 (applyActualTheme_frame _)) H)).
Defined.

(** ** Loading a page *)

Lemma bootstrapScript_cases (w : Browser) :
  (localStorage w !! "theme"%string = Some "dark"%string
   ∧ bootstrapScript w
     = (tt, with_classList (tokens_add "dark" (classList w)) w, [ClassAdd "dark"]))
  ∨ (localStorage w !! "theme"%string = Some "light"%string
     ∧ bootstrapScript w
       = (tt, with_classList (tokens_remove "dark" (classList w)) w,
          [ClassRemove "dark"]))
  ∨ (localStorage w !! "theme"%string ≠ Some "dark"%string
     ∧ localStorage w !! "theme"%string ≠ Some "light"%string
     ∧ bootstrapScript w
       = (tt,
          with_localStorage (<["theme"%string := "system"%string]> (localStorage w))
            (with_classList
               ((if prefersDark w then tokens_add "dark" else tokens_remove "dark")
                  (classList w)) w),
          [if prefersDark w then ClassAdd "dark" else ClassRemove "dark";
           StorageSetItem "theme" "system"])).
Proof.
  destruct w as [st au store classes os].
  unfold bootstrapScript, mbind, M_bind, localStorage_getItem.
  cbn [localStorage prefersDark classList fst snd].
  destruct (store !! "theme"%string) as [s|] eqn:Es.
  - destruct (strict_eq_spec (VStr s) (VStr "dark")) as [[= ->]|Hd]; [by left|].
    destruct (strict_eq_spec (VStr s) (VStr "light")) as [[= ->]|Hl];
      [by right; left|].
    right; right. split; [congruence|]. split; [congruence|]. by destruct os.
  - right; right. split; [done|]. split; [done|]. by destruct os.
Qed.

(** What the inline script leaves behind: a stored preference [p] among the
    three names, and the [dark] class set as [p] resolves. *)
Lemma bootstrapScript_leaves (w : Browser) :
  ∃ p : Spec.ThemePreference,
    localStorage (exec bootstrapScript w) !! "theme"%string = Some (Spec.pref_name p)
    ∧ ("dark"%string ∈ classList (exec bootstrapScript w)
       ↔ Spec.resolve p (prefersDark w) = Spec.ADark)
    ∧ prefersDark (exec bootstrapScript w) = prefersDark w
    ∧ state (exec bootstrapScript w) = state w
    ∧ audioRef (exec bootstrapScript w) = audioRef w
    ∧ (∀ k : string, k ≠ "theme"%string →
         localStorage (exec bootstrapScript w) !! k = localStorage w !! k).
Proof.
  unfold exec.
  destruct (bootstrapScript_cases w) as [[Hs ->]|[[Hs ->]|(_ & _ & ->)]];
    cbn [fst snd localStorage classList prefersDark state audioRef
         with_classList with_localStorage].
  - exists Spec.Dark. split; [done|].
    split; [split; [done|intros _; apply tokens_add_elem]|done].
  - exists Spec.Light. split; [done|]. split; [|done].
    split; [intros Hin; by apply tokens_remove_not_elem in Hin|done].
  - exists Spec.System. split; [apply lookup_insert_eq|]. split.
    + cbn [Spec.resolve Spec.OSscheme]. destruct (prefersDark w).
      * split; [done|intros _; apply tokens_add_elem].
      * split; [intros Hin; by apply tokens_remove_not_elem in Hin|done].
    + repeat (split; [done|]). intros k Hk. by rewrite lookup_insert_ne.
Qed.

Lemma commitActualTheme_run (previous : value) (w : Browser) :
  commitActualTheme previous w
  = if strict_eq previous (actualTheme (state w)) then (tt, w, [])
    else applyActualTheme w.
Proof.
  unfold commitActualTheme, mbind, M_bind, getState. cbn [fst snd].
  destruct (strict_eq previous (actualTheme (state w))); [done|].
  by destruct (applyActualTheme w) as [[[] w'] es].
Qed.

(** Mounting over a stored preference [p]. *)
Lemma mount_stored (p : Spec.ThemePreference) (w : Browser) :
  localStorage w !! "theme"%string = Some (Spec.pref_name p) →
  exec mount w
  = with_classList
      ((match Spec.resolve p (prefersDark w) with
        | Spec.ADark => tokens_add "dark"
        | Spec.ALight => tokens_remove "dark"
        end) (classList w))
      (with_state (mkThemeState (pref_value p)
                     (actual_value (Spec.resolve p (prefersDark w)))) w).
Proof.
  intros Hs. unfold mount. rewrite exec_bind.
  pose proof (initialize_run w) as Hrun. cbn zeta in Hrun.
  assert (Hst : stored_theme w = pref_value p).
  { unfold stored_theme, localStorage_getItem. by rewrite Hs. }
  rewrite Hst, getActualTheme_refines in Hrun. cbn [fst] in Hrun.
  unfold exec at 2. rewrite Hrun. cbn [fst snd].
  unfold exec. rewrite commitActualTheme_run, applyActualTheme_run.
  cbn [state actualTheme with_state classList].
  by destruct (Spec.resolve p (prefersDark w)).
Qed.

Lemma pageLoad_leaves (w : Browser) :
  in_sync (exec pageLoad w)
  ∧ dark_class_matches (exec pageLoad w)
  ∧ classList (exec pageLoad w) = classList (exec bootstrapScript w).
Proof.
  unfold pageLoad. rewrite exec_bind.
  destruct (bootstrapScript_leaves w) as (p & Hs & Hcls & Hos & _).
  set (wb := exec bootstrapScript w) in *.
  rewrite (mount_stored p wb Hs). rewrite Hos.
  assert (Hsame : (match Spec.resolve p (prefersDark w) with
                   | Spec.ADark => tokens_add "dark"
                   | Spec.ALight => tokens_remove "dark"
                   end) (classList wb) = classList wb).
  { destruct (Spec.resolve p (prefersDark w)) eqn:Er.
    - apply tokens_remove_notin. rewrite Hcls. congruence.
    - apply tokens_add_in. by apply Hcls. }
  rewrite Hsame. split; [|split; [|done]].
  - exists p. cbn [state displayTheme actualTheme with_classList with_state
                   prefersDark localStorage].
    by rewrite Hos.
  - unfold dark_class_matches.
    cbn [state actualTheme with_classList with_state classList].
    rewrite Hcls. destruct (Spec.resolve p (prefersDark w)); split; done.
Qed.

(** X2: whatever was stored before (nothing, a valid name, or any other
    string), after the inline script the key ['theme'] holds one of
    ["light"], ["dark"], ["system"]; a stored ["light"] or ["dark"] is kept
    as it is; and no other key, nor the React state, the audio ref or the OS
    signal, is changed. *)
Theorem bootstrapScript_sanitises (w : Browser) :
  (∃ p : Spec.ThemePreference,
     localStorage (exec bootstrapScript w) !! "theme"%string = Some (Spec.pref_name p))
  ∧ (∀ p : Spec.ThemePreference, p ≠ Spec.System →
       localStorage w !! "theme"%string = Some (Spec.pref_name p) →
       localStorage (exec bootstrapScript w) = localStorage w)
  ∧ (∀ k : string, k ≠ "theme"%string →
       localStorage (exec bootstrapScript w) !! k = localStorage w !! k)
  ∧ state (exec bootstrapScript w) = state w
  ∧ audioRef (exec bootstrapScript w) = audioRef w
  ∧ prefersDark (exec bootstrapScript w) = prefersDark w.
Proof.
  destruct (bootstrapScript_leaves w) as (p & Hs & _ & Hos & Hst & Hau & Hk).
  split; [by exists p|]. split; [|done].
  intros q Hq Hstored. unfold exec.
  destruct (bootstrapScript_cases w) as [[_ ->]|[[_ ->]|(Hd & Hl & _)]]; [done|done|].
  destruct q; [by rewrite Hstored in Hl|by rewrite Hstored in Hd|done].
Qed.

Lemma bootstrapScript_sanitises_witness :
  Spec.Light ≠ Spec.System
  ∧ localStorage (fresh {["theme" := "light"]} true) !! "theme"%string
    = Some (Spec.pref_name Spec.Light)
  ∧ localStorage (exec bootstrapScript (fresh {["theme" := "light"]} true))
    = localStorage (fresh {["theme" := "light"]} true).
Proof.
  assert (H1 : Spec.Light ≠ Spec.System) by discriminate.
  assert (H2 : localStorage (fresh {["theme" := "light"]} true) !! "theme"%string
               = Some (Spec.pref_name Spec.Light)) by reflexivity.
  exact (conj H1 (conj H2
    (proj1 (proj2 (bootstrapScript_sanitises _)) Spec.Light H1 H2))).
Defined.

(** X3: after a page load (the inline script, then the mount effect and the
    render it causes), whatever the storage held and whatever the OS signal:
    the preference in memory is one of the three names, the actual theme is
    what it resolves to under the OS signal, and the stored preference is
    the one in memory. In particular the unvalidated copy made by the mount
    effect never sees an invalid value once the inline script has run. *)
Theorem pageLoad_in_sync (w : Browser) :
  ∃ p : Spec.ThemePreference,
    displayTheme (state (exec pageLoad w)) = pref_value p
    ∧ actualTheme (state (exec pageLoad w))
      = actual_value (Spec.resolve p (prefersDark w))
    ∧ localStorage (exec pageLoad w) !! "theme"%string = Some (Spec.pref_name p)
    ∧ prefersDark (exec pageLoad w) = prefersDark w.
Proof.
  assert (Hos : prefersDark (exec pageLoad w) = prefersDark w).
  { unfold pageLoad. rewrite exec_bind.
    destruct (bootstrapScript_leaves w) as (p & Hs & _ & Hos & _).
    by rewrite (mount_stored p _ Hs). }
  destruct (pageLoad_leaves w) as [(p & Hd & Ha & Hs) _].
  exists p. rewrite Hos in Ha. done.
Qed.

(** X4: hydration does not flip the theme the inline script painted: the
    mount effect and its render leave the class list exactly as the inline
    script set it, and the [dark] class is present exactly when the actual
    theme just computed is dark. *)
Theorem pageLoad_no_flash (w : Browser) :
  classList (exec pageLoad w) = classList (exec bootstrapScript w)
  ∧ ("dark"%string ∈ classList (exec bootstrapScript w)
     ↔ actualTheme (state (exec pageLoad w)) = VStr "dark").
Proof.
  destruct (pageLoad_leaves w) as (_ & Hm & Hc).
  split; [exact Hc|]. rewrite <- Hc. exact Hm.
Qed.

(** ** One switch, three switches *)

(** X5: a switch repairs and synchronises: from any state at all (also a
    [null] or unknown preference, or an actual theme that does not match),
    after [switchTheme] the preference is one of the three names, the actual
    theme is what it resolves to under the OS signal, and the value stored
    under ['theme'] is the preference in memory; no other key of the storage
    is touched, nor the class list, the audio ref or the OS signal. *)
Theorem switchTheme_converges (w : Browser) :
  ∃ q : Spec.ThemePreference,
    displayTheme (state (exec switchTheme w)) = pref_value q
    ∧ actualTheme (state (exec switchTheme w))
      = actual_value (Spec.resolve q (prefersDark w))
    ∧ localStorage (exec switchTheme w) !! "theme"%string = Some (Spec.pref_name q)
    ∧ (∀ k : string, k ≠ "theme"%string →
         localStorage (exec switchTheme w) !! k = localStorage w !! k)
    ∧ classList (exec switchTheme w) = classList w
    ∧ audioRef (exec switchTheme w) = audioRef w
    ∧ prefersDark (exec switchTheme w) = prefersDark w.
Proof.
  destruct (switchTheme_any w) as (q & _ & Hrun). exists q.
  unfold exec. rewrite Hrun.
  cbn [fst snd state displayTheme actualTheme localStorage classList audioRef
       prefersDark with_localStorage with_state].
  split; [done|]. split; [done|]. split; [apply lookup_insert_eq|].
  split; [|done]. intros k Hk. by rewrite lookup_insert_ne.
Qed.

Lemma switchTheme_in_sync (w : Browser) :
  in_sync (exec switchTheme w) ∧ classList (exec switchTheme w) = classList w.
Proof.
  destruct (switchTheme_any w) as (q & _ & Hrun).
  unfold exec. rewrite Hrun. cbn [fst snd]. split; [|done].
  exists q. cbn [state displayTheme actualTheme localStorage prefersDark
                 with_localStorage with_state].
  split; [done|]. split; [done|]. apply lookup_insert_eq.
Qed.




(** ** Events *)

Lemma detectSystemThemeChange_run (event_matches : bool) (w : Browser) :
  detectSystemThemeChange event_matches w
  = if strict_eq (displayTheme (state w)) (VStr "system")
    then (tt,
          with_state (mkThemeState (displayTheme (state w))
                        (if event_matches then VStr "dark" else VStr "light")) w,
          [SetState (mkThemeState (displayTheme (state w))
                       (if event_matches then VStr "dark" else VStr "light"))])
    else (tt, w, []).
Proof.
  unfold detectSystemThemeChange, mbind, M_bind, getState. cbn [fst snd].
  by destruct (strict_eq (displayTheme (state w)) (VStr "system")).
Qed.

Lemma mediaChange_run (b : bool) (w : Browser) :
  react (MediaChange b) w
  = detectSystemThemeChange b
      (mkBrowser (state w) (audioRef w) (localStorage w) (classList w) b).
Proof.
  unfold react, mbind, M_bind, matchMedia_set. cbn [fst snd].
  by destruct (detectSystemThemeChange b _) as [[[] w'] es].
Qed.

Lemma handle_exec (e : event) (w : Browser) :
  exec (handle e) w
  = exec (commitActualTheme (actualTheme (state w))) (exec (react e) w).
Proof. unfold handle. by rewrite !exec_bind. Qed.

Lemma handle_emitted (e : event) (w : Browser) :
  emitted (handle e) w
  = emitted (react e) w
    ++ emitted (commitActualTheme (actualTheme (state w))) (exec (react e) w).
Proof. unfold handle. by rewrite !emitted_bind. Qed.

(** The callback of an event keeps a synchronised session synchronised and
    never touches the class list. *)
Lemma react_in_sync (e : event) (w : Browser) :
  in_sync w → in_sync (exec (react e) w).
Proof.
  intros (p & Hd & Ha & Hs). destruct e as [|b|buf|buf].
  - apply switchTheme_in_sync.
  - unfold exec. rewrite mediaChange_run, detectSystemThemeChange_run.
    cbn [state]. rewrite Hd.
    destruct p.
    + exists Spec.Light. cbn. by rewrite Hd, Ha.
    + exists Spec.Dark. cbn. by rewrite Hd, Ha.
    + exists Spec.System. cbn. split; [done|]. split; [by destruct b|done].
  - by exists p.
  - by exists p.
Qed.

Lemma react_classList (e : event) (w : Browser) :
  classList (exec (react e) w) = classList w.
Proof.
  destruct e as [|b|buf|buf]; [apply switchTheme_in_sync| |done|done].
  unfold exec. rewrite mediaChange_run, detectSystemThemeChange_run.
  cbn [state]. by destruct (strict_eq _ _).
Qed.

(** The render after an event changes the class list only. *)
Lemma commitActualTheme_frame (previous : value) (w : Browser) :
  with_classList (classList w) (exec (commitActualTheme previous) w) = w
  ∧ writes (emitted (commitActualTheme previous) w) = []
  ∧ cues (emitted (commitActualTheme previous) w) = [].
Proof.
  unfold exec, emitted. rewrite commitActualTheme_run.
  destruct (strict_eq previous (actualTheme (state w))); [by destruct w|].
  rewrite applyActualTheme_run.
  by destruct (strict_eq (actualTheme (state w)) (VStr "light")),
              (strict_eq (actualTheme (state w)) (VStr "dark")), w.
Qed.

Lemma commitActualTheme_in_sync (previous : value) (w : Browser) :
  in_sync w → in_sync (exec (commitActualTheme previous) w).
Proof.
  intros Hw. destruct (commitActualTheme_frame previous w) as [Hf _].
  rewrite <- Hf in Hw. destruct Hw as (p & Hd & Ha & Hs). by exists p.
Qed.

Lemma commitActualTheme_matches (previous : value) (w : Browser) :
  (∃ a : Spec.ActualTheme, actualTheme (state w) = actual_value a) →
  (previous = actualTheme (state w) → dark_class_matches w) →
  dark_class_matches (exec (commitActualTheme previous) w).
Proof.
  intros [a Ha] Hprev. unfold exec. rewrite commitActualTheme_run.
  destruct (strict_eq_spec previous (actualTheme (state w))) as [Heq|Hne];
    [by apply Hprev|].
  rewrite applyActualTheme_run, Ha. unfold dark_class_matches.
  destruct a; cbn [fst snd state actualTheme classList with_classList actual_value
                   Spec.actual_name strict_eq String.eqb Ascii.eqb Bool.eqb].
  - rewrite Ha. split; [intros Hin; by apply tokens_remove_not_elem in Hin|done].
  - rewrite Ha. split; [done|intros _; apply tokens_add_elem].
Qed.

Lemma handle_inv (e : event) (w : Browser) :
  in_sync w → dark_class_matches w →
  in_sync (exec (handle e) w) ∧ dark_class_matches (exec (handle e) w).
Proof.
  intros Hw Hm. rewrite handle_exec.
  pose proof (react_in_sync e w Hw) as Hw1.
  split; [by apply commitActualTheme_in_sync|].
  apply commitActualTheme_matches.
  - destruct Hw1 as (p & _ & Ha & _). eauto.
  - intros Heq. unfold dark_class_matches in *.
    by rewrite react_classList, <- Heq.
Qed.

Lemma run_exec_cons (e : event) (es : list event) (w : Browser) :
  exec (run (e :: es)) w = exec (run es) (exec (handle e) w).
Proof. cbn [run]. by rewrite exec_bind. Qed.

Lemma run_inv (es : list event) (w : Browser) :
  in_sync w → dark_class_matches w →
  in_sync (exec (run es) w) ∧ dark_class_matches (exec (run es) w).
Proof.
  revert w. induction es as [|e es IH]; intros w Hw Hm; [done|].
  rewrite run_exec_cons.
  destruct (handle_inv e w Hw Hm) as [Hw' Hm']. by apply IH.
Qed.

(** X7: an invariant of the running page. After a page load and any
    sequence of clicks, OS colour-scheme changes and clip arrivals, in any
    order: the preference is one of the three names, the actual theme is what
    the preference resolves to under the current OS signal, the storage
    holds the preference in memory, the document carries the [dark] class
    exactly when the actual theme is dark, and exactly one theme-colour
    [meta] is rendered, the dark one exactly when the [dark] class is set. *)
Theorem page_invariant (es : list event) (w : Browser) :
  ∃ p : Spec.ThemePreference,
    let w' := exec (run es) (exec pageLoad w) in
    displayTheme (state w') = pref_value p
    ∧ actualTheme (state w') = actual_value (Spec.resolve p (prefersDark w'))
    ∧ localStorage w' !! "theme"%string = Some (Spec.pref_name p)
    ∧ ("dark"%string ∈ classList w' ↔ actualTheme (state w') = VStr "dark")
    ∧ ∃ c : string,
        themeColorMeta (state w') = [c]
        ∧ (c = "#1b1d22"%string ↔ "dark"%string ∈ classList w').
Proof.
  destruct (pageLoad_leaves w) as (Hw & Hm & _).
  destruct (run_inv es _ Hw Hm) as [(p & Hd & Ha & Hs) Hm'].
  exists p. cbn zeta. split; [done|]. split; [done|]. split; [done|].
  split; [exact Hm'|].
  unfold dark_class_matches in Hm'. unfold themeColorMeta.
  rewrite Ha in Hm' |- *.
  destruct (Spec.resolve p _); cbn in Hm' |- *.
  - exists "#f7f7f7"%string. split; [done|].
    split; [discriminate|]. intros Hin. by apply Hm' in Hin.
  - exists "#1b1d22"%string. split; [done|]. split; [intros _; by apply Hm'|done].
Qed.

(** ** What a run writes and plays *)

Lemma run_emitted_cons (e : event) (es : list event) (w : Browser) :
  emitted (run (e :: es)) w
  = emitted (handle e) w ++ emitted (run es) (exec (handle e) w).
Proof. cbn [run]. by rewrite emitted_bind. Qed.

Lemma react_emitted (e : event) (w : Browser) :
  match e with
  | Click =>
      ∃ q : Spec.ThemePreference,
        writes (emitted (react e) w) = [("theme"%string, Spec.pref_name q)]
        ∧ cues (emitted (react e) w)
          = Spec.cue (Spec.resolve q (prefersDark w)) (audioRef w)
  | _ => writes (emitted (react e) w) = [] ∧ cues (emitted (react e) w) = []
  end.
Proof.
  destruct e as [|b|buf|buf]; [| |done|done].
  - destruct (switchTheme_any w) as (q & _ & Hrun). exists q.
    unfold emitted, react. rewrite Hrun. cbn [snd].
    rewrite writes_app, cues_app, writes_PlaySound, cues_PlaySound. done.
  - unfold emitted. rewrite mediaChange_run, detectSystemThemeChange_run.
    cbn [state]. by destruct (strict_eq _ _).
Qed.

Lemma react_audioRef (e : event) (w : Browser) :
  match e with
  | SwitchOnResolved _ | SwitchOffResolved _ => True
  | _ => audioRef (exec (react e) w) = audioRef w
  end.
Proof.
  destruct e as [|b|buf|buf]; [|  |done|done].
  - destruct (switchTheme_any w) as (q & _ & Hrun).
    unfold exec, react. by rewrite Hrun.
  - unfold exec. rewrite mediaChange_run, detectSystemThemeChange_run.
    cbn [state]. by destruct (strict_eq _ _).
Qed.

Lemma handle_effects (e : event) (w : Browser) :
  writes (emitted (handle e) w) = writes (emitted (react e) w)
  ∧ cues (emitted (handle e) w) = cues (emitted (react e) w).
Proof.
  rewrite handle_emitted, writes_app, cues_app.
  destruct (commitActualTheme_frame (actualTheme (state w)) (exec (react e) w))
    as (_ & -> & ->).
  by rewrite !app_nil_r.
Qed.

Lemma handle_audioRef (e : event) (w : Browser) :
  audioRef (exec (handle e) w) = audioRef (exec (react e) w).
Proof.
  rewrite handle_exec.
  destruct (commitActualTheme_frame (actualTheme (state w)) (exec (react e) w))
    as (Hf & _).
  rewrite <- Hf at 2. done.
Qed.

(** X8: over any sequence of events, from any session: storage is written
    exactly once per click and never otherwise (OS changes, clip arrivals
    and renders write nothing); every write goes to the key ['theme'] with
    one of the three names; and at most one cue is played per click. *)
Theorem run_writes_per_click (es : list event) (w : Browser) :
  length (writes (emitted (run es) w)) = clicks es
  ∧ Forall (λ kv : string * string,
              kv.1 = "theme"%string ∧ ∃ p : Spec.ThemePreference, kv.2 = Spec.pref_name p)
           (writes (emitted (run es) w))
  ∧ (length (cues (emitted (run es) w)) ≤ clicks es)%nat.
Proof.
  revert w. induction es as [|e es IH]; intros w.
  - cbn. split; [done|]. split; [constructor|lia].
  - rewrite run_emitted_cons, writes_app, cues_app, !length_app.
    destruct (IH (exec (handle e) w)) as (IHw & IHf & IHc).
    destruct (handle_effects e w) as [-> ->].
    pose proof (react_emitted e w) as He.
    destruct e as [|b|buf|buf]; cbn [clicks].
    + destruct He as (q & -> & ->). cbn [length].
      split; [lia|]. split.
      * apply Forall_app. split; [|done].
        apply Forall_singleton. split; [done|by exists q].
      * assert (Hle : (length (Spec.cue (Spec.resolve q (prefersDark w)) (audioRef w))
                       ≤ 1)%nat).
        { destruct (Spec.resolve q (prefersDark w)); cbn;
            [destruct (switchOn (audioRef w))|destruct (switchOff (audioRef w))];
            cbn; lia. }
        lia.
    + destruct He as [-> ->]. done.
    + destruct He as [-> ->]. done.
    + destruct He as [-> ->]. done.
Qed.

(** X11: until a clip arrives nothing is ever played: from a session whose
    two audio slots are still empty, any sequence of clicks and OS changes
    without a clip arrival plays no cue at all, while each click is still
    written to storage. *)
Theorem run_silent_until_arrival (es : list event) (w : Browser) :
  audioRef w = mkAudioRef None None →
  arrivals es = 0%nat →
  cues (emitted (run es) w) = []
  ∧ length (writes (emitted (run es) w)) = clicks es
  ∧ audioRef (exec (run es) w) = mkAudioRef None None.
Proof.
  revert w. induction es as [|e es IH]; intros w Hau Harr; [done|].
  rewrite run_emitted_cons, run_exec_cons, writes_app, cues_app, length_app.
  destruct (handle_effects e w) as [-> ->].
  pose proof (react_emitted e w) as He.
  pose proof (react_audioRef e w) as Ha.
  assert (Hau' : audioRef (exec (handle e) w) = mkAudioRef None None).
  { rewrite handle_audioRef. destruct e; [congruence|congruence|done|done]. }
  destruct e as [|b|buf|buf]; cbn [arrivals clicks] in *; [| |done|done].
  - destruct (IH _ Hau' Harr) as (-> & -> & ->).
    destruct He as (q & -> & ->). rewrite Hau.
    by destruct (Spec.resolve q (prefersDark w)).
  - destruct (IH _ Hau' Harr) as (-> & -> & ->).
    by destruct He as [-> ->].
Qed.

Lemma run_silent_until_arrival_witness :
  audioRef (fresh {["theme" := "light"]} true) = mkAudioRef None None
  ∧ arrivals [Click; MediaChange false; Click] = 0%nat
  ∧ cues (emitted (run [Click; MediaChange false; Click])
            (fresh {["theme" := "light"]} true)) = [].
Proof.
  assert (H1 : audioRef (fresh {["theme" := "light"]} true) = mkAudioRef None None)
    by reflexivity.
  assert (H2 : arrivals [Click; MediaChange false; Click] = 0%nat) by reflexivity.
  exact (conj H1 (conj H2 (proj1 (run_silent_until_arrival _ _ H1 H2)))).
Defined.

(** ** The actual theme is never ["system"] *)

Lemma getActualTheme_not_system (v : value) (w : Browser) :
  strict_eq (getActualTheme v w).1.1 (VStr "system") = false.
Proof.
  destruct (strict_eq_spec v (VStr "system")) as [->|Hv].
  - rewrite getActualTheme_system. by destruct (prefersDark w).
  - rewrite getActualTheme_other by done. by apply strict_eq_ne.
Qed.

Lemma commitActualTheme_state (previous : value) (w : Browser) :
  state (exec (commitActualTheme previous) w) = state w.
Proof.
  destruct (commitActualTheme_frame previous w) as (Hf & _).
  rewrite <- Hf at 2. done.
Qed.

Lemma react_not_system (e : event) (w : Browser) :
  strict_eq (actualTheme (state w)) (VStr "system") = false →
  strict_eq (actualTheme (state (exec (react e) w))) (VStr "system") = false.
Proof.
  intros Hw. destruct e as [|b|buf|buf]; [| |done|done].
  - destruct (switchTheme_any w) as (q & _ & Hrun).
    unfold exec, react. rewrite Hrun. cbn [fst snd state actualTheme with_state
                                           with_localStorage].
    by destruct (Spec.resolve q (prefersDark w)).
  - unfold exec. rewrite mediaChange_run, detectSystemThemeChange_run.
    cbn [state]. destruct (strict_eq (displayTheme (state w)) (VStr "system"));
      [by destruct b|done].
Qed.

(** X9: the actual theme is never ["system"]. After the mount effect,
    whatever the storage holds (nothing, a valid name or any other string,
    with or without the inline script having run), and after any sequence of
    events that follows, the comparison [actualTheme === 'system'] is
    false. *)
Theorem actualTheme_never_system (es : list event) (w : Browser) :
  strict_eq (actualTheme (state (exec (run es) (exec mount w)))) (VStr "system")
  = false.
Proof.
  assert (Hmount : strict_eq (actualTheme (state (exec mount w))) (VStr "system")
                   = false).
  { unfold mount. rewrite exec_bind, commitActualTheme_state.
    pose proof (initialize_run w) as Hrun. cbn zeta in Hrun.
    unfold exec. rewrite Hrun. cbn [fst snd state actualTheme with_state].
    apply getActualTheme_not_system. }
  revert Hmount. generalize (exec mount w). clear w.
  induction es as [|e es IH]; intros w Hw; [done|].
  rewrite run_exec_cons. apply IH.
  rewrite handle_exec, commitActualTheme_state. by apply react_not_system.
Qed.

(** ** Clips and notifications *)

(** X10: the two clips may arrive in either order: both orders give the same
    session, in which only the audio ref has changed and holds both clips,
    and no effect is performed on arrival. Once both have arrived every
    switch plays exactly one cue: the switch-on clip when the resulting actual
    theme is ["light"], the switch-off clip otherwise. *)
Theorem clips_arrive_in_any_order (a b : AudioBuffer) (w : Browser) :
  let w' := exec (switchOnLoaded a;; switchOffLoaded b) w in
  exec (switchOffLoaded b;; switchOnLoaded a) w = w'
  ∧ w' = with_audioRef (mkAudioRef (Some a) (Some b)) w
  ∧ emitted (switchOnLoaded a;; switchOffLoaded b) w = []
  ∧ emitted (switchOffLoaded b;; switchOnLoaded a) w = []
  ∧ cues (emitted switchTheme w')
    = [if strict_eq (actualTheme (state (exec switchTheme w'))) (VStr "light")
       then a else b].
Proof.
  cbn zeta.
  assert (Hw' : exec (switchOnLoaded a;; switchOffLoaded b) w
                = with_audioRef (mkAudioRef (Some a) (Some b)) w) by done.
  rewrite Hw'. split; [done|]. split; [done|]. split; [done|]. split; [done|].
  set (w' := with_audioRef _ w).
  destruct (switchTheme_any w') as (q & _ & Hrun).
  unfold exec, emitted. rewrite Hrun. cbn [fst snd state actualTheme with_state
                                           with_localStorage].
  rewrite cues_app, cues_PlaySound.
  by destruct (Spec.resolve q (prefersDark w')).
Qed.

